(** * Solar System catalog and calculator

    A shallow embedding of the two Python modules of the repository:

    - [calculator_solar_system.py]: the [PLANETS] dictionary and the
      functions derived from it (module [Calculator]);
    - [solar_system.py]: the [Planet] dataclass, the [SolarSystem] class and
      its lookup by name (module [SolarSystem]).

    Python [float] is IEEE 754 binary64; it is embedded as Rocq's primitive
    [float], whose [+], [*], [/], [sqrt] and comparisons are the same
    correctly rounded operations, so that the functions below evaluate to
    the values the interpreter computes ([**], which goes through the C
    library, is described at [float_pow]).  Python [int] is [Z].  A call
    either returns a value or raises: functions that can raise live in the
    [result] monad.  Module [Exact] reads the scalar formulas over the real
    numbers, for the statements that are about the formulas themselves. *)

From Stdlib Require Import ZArith List String Ascii Bool Lia.
From Stdlib Require Import DecimalString Permutation.
From Stdlib Require Import Floats.
From Stdlib Require Import Reals Lra.
Import ListNotations.

Set Warnings "-inexact-float".

(** ** The Python runtime, as far as the two modules use it *)

Module Py.

(** The exceptions that the operations used by the program can raise. *)
Inductive exn : Type :=
| ValueError (msg : string)
| KeyError (key : string)
| ZeroDivisionError (msg : string)
| OverflowError (msg : string).

(** The outcome of a call: a returned value or a raised exception. *)
Inductive result (A : Type) : Type :=
| Ok (a : A)
| Raise (e : exn).
Arguments Ok {A} a.
Arguments Raise {A} e.

Definition bind {A B : Type} (r : result A) (k : A -> result B) : result B :=
  match r with
  | Ok a => k a
  | Raise e => Raise e
  end.

Notation "x <- r ;; k" := (bind r (fun x => k))
  (at level 61, r at next level, right associativity).

(** A value that the source writes sometimes as an [int] literal and
    sometimes as a [float] literal ([day_hours], [year_days]). *)
Inductive number : Type :=
| Int (z : Z)
| Float (f : float).

(** *** Strings

    A [str] is embedded as a [string] whose characters are the code points
    0..255.  [lower] is [str.lower] there: the ASCII capitals and the
    Latin-1 capitals (U+00C0..U+00DE but the multiplication sign U+00D7) move
    up by 32, every other code point below 256 is its own lower case. *)
Definition lower_char (c : ascii) : ascii :=
  let n := N_of_ascii c in
  if ((65 <=? n) && (n <=? 90))%N then ascii_of_N (n + 32)
  else if ((192 <=? n) && (n <=? 222) && negb (n =? 215))%N
       then ascii_of_N (n + 32)
       else c.

Fixpoint lower (s : string) : string :=
  match s with
  | EmptyString => EmptyString
  | String c s' => String (lower_char c) (lower s')
  end.

(** [upper] is [str.upper] on ASCII text, which is all it is applied to
    (the planet names). *)
Definition upper_char (c : ascii) : ascii :=
  let n := N_of_ascii c in
  if ((97 <=? n) && (n <=? 122))%N then ascii_of_N (n - 32) else c.

Fixpoint upper (s : string) : string :=
  match s with
  | EmptyString => EmptyString
  | String c s' => String (upper_char c) (upper s')
  end.

(** *** Numbers *)

(** [float(z)]: the nearest binary64 value, ties to even; an [int] beyond
    the range of [float] raises. *)
Definition to_float (z : Z) : float :=
  SF2Prim (binary_normalize prec emax z 0 false).

Definition float_of_int (z : Z) : result float :=
  let f := to_float z in
  if is_infinity f
  then Raise (OverflowError "int too large to convert to float")
  else Ok f.

(** [x / y] on floats. *)
Definition float_truediv (x y : float) : result float :=
  if (y =? 0)%float
  then Raise (ZeroDivisionError "float division by zero")
  else Ok (x / y)%float.

(** [a / b] on ints.  Both operands of the program are below [2^53], where
    the interpreter converts each exactly and divides once. *)
Definition int_truediv (a b : Z) : result float :=
  if (b =? 0)%Z
  then Raise (ZeroDivisionError "division by zero")
  else
    x <- float_of_int a ;;
    y <- float_of_int b ;;
    Ok (x / y)%float.

(** [math.sqrt]. *)
Definition math_sqrt (x : float) : result float :=
  if (x <? 0)%float
  then Raise (ValueError "math domain error")
  else Ok (PrimFloat.sqrt x).

(** [math.pi]. *)
Definition math_pi : float := 3.141592653589793%float.

(** The C library's [pow] at a finite [x > 0] and an integer exponent
    [n > 0], taken at its correctly rounded value: the exact power of the
    mantissa, rounded once to nearest. *)
Definition libm_pow (x : float) (n : positive) : float :=
  match Prim2SF x with
  | S754_finite _ m e =>
      SF2Prim (binary_normalize prec emax (Z.pos (m ^ n)) (e * Z.pos n) false)
  | _ => x
  end.

(** [iv ** n] for a float [iv] and an [int] literal [n > 0]: the exponent
    is converted to [float] and the interpreter's [float_pow] runs.  It
    settles NaN, the infinities, the zeros, the sign and [1.0] itself, hands
    the rest to the C library, and turns an infinite result into
    [OverflowError]. *)
Definition float_pow (iv : float) (n : positive) : result float :=
  let odd := Z.odd (Z.pos n) in
  if is_nan iv then Ok iv
  else if is_infinity iv then Ok (if odd then iv else abs iv)
  else if (iv =? 0)%float then Ok (if odd then iv else 0%float)
  else
    let negate_result := (iv <? 0)%float && odd in
    let iv' := abs iv in
    if (iv' =? 1)%float then Ok (if negate_result then (-1)%float else 1%float)
    else
      let ix := libm_pow iv' n in
      if is_infinity ix
      then Raise (OverflowError "(34, 'Numerical result out of range')")
      else Ok (if negate_result then (- ix)%float else ix).

(** [sum] of a list of [bool]s: [True] counts 1, [False] counts 0. *)
Definition int_of_bool (b : bool) : Z := if b then 1%Z else 0%Z.

Definition sum (l : list bool) : Z :=
  fold_left (fun acc b => (acc + int_of_bool b)%Z) l 0%Z.

(** *** Text and standard output

    [print] is given one [str].  An f-string that formats a [float] is kept
    in pieces: the literal text, and for each float the value with its
    format specification, the digits left unwritten.  What a function
    prints is the list of the arguments of its [print] calls, in order. *)
Inductive piece : Type :=
| Str (s : string)
| FloatStr (x : float)
| FloatFmt (spec : string) (x : float).

Definition line : Type := list piece.

Definition newline : string := String (ascii_of_N 10) EmptyString.

(** [str(z)] for an [int]. *)
Definition str_of_int (z : Z) : string := NilZero.string_of_int (Z.to_int z).

(** [format(z, ',')]: the digits in groups of three from the right. *)
Fixpoint group3 (rev_digits : list ascii) (k : nat) : list ascii :=
  match rev_digits with
  | [] => []
  | d :: rest =>
      match k, rest with
      | 2%nat, _ :: _ => d :: ","%char :: group3 rest 0
      | _, _ => d :: group3 rest (S k)
      end
  end.

Definition format_grouped (z : Z) : string :=
  let digits := list_ascii_of_string (str_of_int (Z.abs z)) in
  let body := string_of_list_ascii (rev (group3 (rev digits) 0)) in
  if (z <? 0)%Z then ("-" ++ body)%string else body.

(** [s * n]. *)
Fixpoint str_mul (s : string) (n : nat) : string :=
  match n with
  | O => EmptyString
  | S n' => (s ++ str_mul s n')%string
  end.

(** [s.center(width)]: when the margin is odd, the extra space goes to the
    left if the width is odd and to the right if it is even. *)
Definition center (s : string) (width : nat) : string :=
  let len := String.length s in
  if (width <=? len)%nat then s
  else
    let marg := (width - len)%nat in
    let left :=
      (marg / 2 + (if Nat.odd marg && Nat.odd width then 1 else 0))%nat in
    (str_mul " " left ++ s ++ str_mul " " (marg - left))%string.

(** [s.isascii()]. *)
Fixpoint isascii (s : string) : bool :=
  match s with
  | EmptyString => true
  | String c s' => (N_of_ascii c <? 128)%N && isascii s'
  end.

End Py.

Import Py.

(** ** calculator_solar_system.py *)

Module Calculator.

(** Astronomical constants. *)
Definition AU : float := 149597870.7%float.
Definition G : float := 6.67430e-11%float.
Definition SUN_MASS : float := 1.989e30%float.

(** The value stored under each planet name in [PLANETS]. *)
Record planet_data : Type := mk_planet_data {
  distance_au : float;
  mass_earth : float;
  radius_km : Z;
  day_hours : number;
  year_days : number;
  moons : Z
}.

(** [PLANETS], in insertion order. *)
Definition PLANETS : list (string * planet_data) :=
  [ ("Mercury"%string,
     mk_planet_data 0.387 0.055 2440 (Int 1408) (Float 87.97) 0);
    ("Venus"%string,
     mk_planet_data 0.723 0.815 6052 (Int 5832) (Float 224.70) 0);
    ("Earth"%string,
     mk_planet_data 1.0 1.0 6371 (Int 24) (Float 365.25) 1);
    ("Mars"%string,
     mk_planet_data 1.524 0.107 3390 (Float 24.6) (Float 686.97) 2);
    ("Jupiter"%string,
     mk_planet_data 5.203 317.8 69911 (Float 9.9) (Int 4331) 95);
    ("Saturn"%string,
     mk_planet_data 9.537 95.2 58232 (Float 10.7) (Int 10747) 146);
    ("Uranus"%string,
     mk_planet_data 19.191 14.5 25362 (Float 17.2) (Int 30589) 27);
    ("Neptune"%string,
     mk_planet_data 30.069 17.1 24622 (Float 16.1) (Int 59800) 14) ].

(** [PLANETS.keys()]. *)
Definition keys : list string := map fst PLANETS.

(** Dictionary access: [d.get(k)], [k in d] and [d[k]]. *)
Fixpoint dict_get {V : Type} (d : list (string * V)) (k : string) : option V :=
  match d with
  | [] => None
  | (k', v) :: d' => if String.eqb k' k then Some v else dict_get d' k
  end.

Definition contains {V : Type} (d : list (string * V)) (k : string) : bool :=
  match dict_get d k with
  | Some _ => true
  | None => false
  end.

Definition getitem {V : Type} (d : list (string * V)) (k : string) : result V :=
  match dict_get d k with
  | Some v => Ok v
  | None => Raise (KeyError k)
  end.

(** The guard that opens every function taking a planet name:
    [if planet_name not in PLANETS: raise ValueError(...)]. *)
Definition not_found (planet_name : string) : exn :=
  ValueError ("Planet " ++ planet_name ++ " not found").

Definition check_planet (planet_name : string) : result unit :=
  if negb (contains PLANETS planet_name)
  then Raise (not_found planet_name)
  else Ok tt.

Definition orbital_period_kepler (semi_major_axis_au : float) : result float :=
  cube <- float_pow semi_major_axis_au 3 ;;
  math_sqrt cube.

Definition orbital_velocity (semi_major_axis_au : float) : result float :=
  let semi_major_axis_m := (semi_major_axis_au * AU * 1000)%float in
  q <- float_truediv (G * SUN_MASS)%float semi_major_axis_m ;;
  velocity_m_s <- math_sqrt q ;;
  Ok (velocity_m_s / 1000)%float.

Definition escape_velocity (planet_name : string) : result float :=
  _ <- check_planet planet_name ;;
  planet <- getitem PLANETS planet_name ;;
  let radius_m := (radius_km planet * 1000)%Z in
  let earth_escape_v := 11.186%float in
  let mass_ratio := mass_earth planet in
  earth <- getitem PLANETS "Earth" ;;
  radius_ratio <- int_truediv (radius_km planet) (radius_km earth) ;;
  q <- float_truediv mass_ratio radius_ratio ;;
  root <- math_sqrt q ;;
  let escape_v := (earth_escape_v * root)%float in
  Ok escape_v.

Definition surface_gravity (planet_name : string) : result float :=
  _ <- check_planet planet_name ;;
  planet <- getitem PLANETS planet_name ;;
  let mass_ratio := mass_earth planet in
  earth <- getitem PLANETS "Earth" ;;
  radius_ratio <- int_truediv (radius_km planet) (radius_km earth) ;;
  square <- float_pow radius_ratio 2 ;;
  gravity <- float_truediv mass_ratio square ;;
  Ok gravity.

Definition distance_au_to_km (distance_au : float) : float :=
  (distance_au * AU)%float.

Definition distance_km_to_au (distance_km : float) : float :=
  (distance_km / AU)%float.

(** The dictionary that [planetary_info] returns, one field per key. *)
Record info : Type := mk_info {
  info_name : string;
  info_distance_au : float;
  info_distance_km : float;
  info_orbital_period_years : float;
  info_orbital_velocity_km_s : float;
  info_radius_km : Z;
  info_surface_area_km2 : float;
  info_volume_km3 : float;
  info_mass_earth_masses : float;
  info_surface_gravity_g : float;
  info_escape_velocity_km_s : float;
  info_day_hours : number;
  info_year_days : number;
  info_moons : Z
}.

(** The values of the dictionary display are evaluated from the first key
    to the last; the first one that raises ends the call. *)
Definition planetary_info (planet_name : string) : result info :=
  _ <- check_planet planet_name ;;
  planet <- getitem PLANETS planet_name ;;
  let distance_km := distance_au_to_km (distance_au planet) in
  orbital_period_years <- orbital_period_kepler (distance_au planet) ;;
  orbital_velocity_km_s <- orbital_velocity (distance_au planet) ;;
  four <- float_of_int 4 ;;
  r2 <- float_of_int (radius_km planet ^ 2) ;;
  let surface_area_km2 := (four * math_pi * r2)%float in
  four_thirds <- int_truediv 4 3 ;;
  r3 <- float_of_int (radius_km planet ^ 3) ;;
  let volume_km3 := (four_thirds * math_pi * r3)%float in
  surface_gravity_g <- surface_gravity planet_name ;;
  escape_velocity_km_s <- escape_velocity planet_name ;;
  Ok (mk_info planet_name (distance_au planet) distance_km
        orbital_period_years orbital_velocity_km_s (radius_km planet)
        surface_area_km2 volume_km3 (mass_earth planet) surface_gravity_g
        escape_velocity_km_s (day_hours planet) (year_days planet)
        (moons planet)).

(** The dictionary that [habitability_check] returns. *)
Record habitability : Type := mk_habitability {
  planet : string;
  in_habitable_zone : bool;
  suitable_surface_gravity : bool;
  habitability_score : Z;
  notes : string
}.

Definition disclaimer : string :=
  "This is a highly simplified assessment and does not consider atmosphere, magnetic field, or other factors.".

Definition habitability_check (planet_name : string) : result habitability :=
  _ <- check_planet planet_name ;;
  info <- planetary_info planet_name ;;
  let in_habitable_zone :=
    (0.95 <? info_distance_au info)%float
    && (info_distance_au info <? 1.37)%float in
  let suitable_gravity :=
    (0.5 <? info_surface_gravity_g info)%float
    && (info_surface_gravity_g info <? 2.0)%float in
  let has_stable_orbit := true in
  let score := sum [in_habitable_zone; suitable_gravity; has_stable_orbit] in
  Ok (mk_habitability planet_name in_habitable_zone suitable_gravity score
        disclaimer).

End Calculator.

(** ** solar_system.py *)

Module SolarSystem.

Inductive PlanetType : Type :=
| TERRESTRIAL
| GASEOUS
| ICE_GIANT.

(** The dataclass [Planet]. *)
Record Planet : Type := mk_Planet {
  name : string;
  planet_type : PlanetType;
  distance_from_sun_au : float;
  diameter_km : Z;
  mass_relative_to_earth : float;
  orbital_period_days : float;
  rotation_period_hours : float;
  moons : Z;
  temperature_celsius : Z;
  composition : string;
  interesting_facts : list string
}.

(** [SolarSystem._create_planets]. *)
Definition _create_planets : list Planet :=
  [ mk_Planet "Mercury" TERRESTRIAL 0.39 4879 0.055 87.97 1407.6 0 167
      "Iron core, rocky surface"
      [ "Closest planet to the Sun"%string;
        "Smallest planet in our solar system"%string;
        "Has extreme temperature variations between day and night"%string;
        "Named after the Roman messenger god"%string;
        "Has no atmosphere"%string ];
    mk_Planet "Venus" TERRESTRIAL 0.72 12104 0.815 224.70 2802.0 0 464
      "Carbon dioxide atmosphere, rocky surface"
      [ "Hottest planet in our solar system"%string;
        "Similar in size to Earth"%string;
        "Rotates backwards compared to most planets"%string;
        "Rotates slower than it orbits the Sun"%string;
        "Has a thick, toxic atmosphere with sulfuric acid clouds"%string ];
    mk_Planet "Earth" TERRESTRIAL 1.00 12742 1.0 365.25 24.0 1 15
      "Iron core, rocky crust, water oceans"
      [ "Only known planet with life"%string;
        "Has one natural satellite: the Moon"%string;
        "Covers about 71% water"%string;
        "Has a protective magnetic field"%string;
        "The perfect distance from the Sun for liquid water"%string ];
    mk_Planet "Mars" TERRESTRIAL 1.52 6779 0.107 686.971 24.6 2 (-65)
      "Iron oxide surface, thin CO2 atmosphere"
      [ "Known as the Red Planet due to iron oxide in soil"%string;
        "Has the largest volcano in the solar system (Olympus Mons)"%string;
        "Home to Valles Marineris, the largest canyon"%string;
        "A potential candidate for future human colonization"%string;
        "Has two small moons: Phobos and Deimos"%string ];
    mk_Planet "Jupiter" GASEOUS 5.20 139820 317.8 4332.89 9.9 95 (-110)
      "Hydrogen and helium gas with rocky core"
      [ "Largest planet in our solar system"%string;
        "Has a Great Red Spot (storm larger than Earth)"%string;
        "Has at least 95 known moons"%string;
        "Rotates faster than any other planet"%string;
        "Has a powerful magnetic field and faint ring system"%string ];
    mk_Planet "Saturn" GASEOUS 9.54 116460 95.2 10759.22 10.7 146 (-140)
      "Hydrogen and helium gas with rocky core"
      [ "Famous for its spectacular ring system"%string;
        "Second largest planet in our solar system"%string;
        "The least dense planet - would float in water"%string;
        "Has over 146 known moons"%string;
        "Titan, its largest moon, has a thick atmosphere"%string ];
    mk_Planet "Uranus" ICE_GIANT 19.19 50724 14.5 30688.5 17.2 28 (-195)
      "Water, methane, ammonia ices with rocky core"
      [ "Rotates on its side (axial tilt of 98 degrees)"%string;
        "Appears as a featureless blue-green sphere"%string;
        "Has a faint ring system"%string;
        "Named after the Greek god of the sky"%string;
        "Methane in its atmosphere gives it its blue color"%string ];
    mk_Planet "Neptune" ICE_GIANT 30.07 49244 17.1 60182.0 16.1 16 (-200)
      "Water, methane, ammonia ices with rocky core"
      [ "Farthest planet from the Sun in our solar system"%string;
        "Coldest planetary atmosphere"%string;
        "Has the strongest winds in the solar system"%string;
        "Named after the Roman god of the sea"%string;
        "Has a dark spot (similar to Jupiter's Great Red Spot)"%string ] ].

(** An instance of the class [SolarSystem]: its one attribute. *)
Record SolarSystem : Type := mk_SolarSystem {
  planets : list Planet
}.

(** [SolarSystem.__init__]. *)
Definition __init__ : SolarSystem := mk_SolarSystem _create_planets.

(** The loop of [get_planet_by_name]: the first planet whose lower-cased
    name equals the lower-cased argument is returned; when the loop ends
    the method returns [None]. *)
Fixpoint get_planet_by_name_loop (ps : list Planet) (name' : string)
  : result (option Planet) :=
  match ps with
  | [] => Ok None
  | planet :: rest =>
      if String.eqb (lower (name planet)) (lower name')
      then Ok (Some planet)
      else get_planet_by_name_loop rest name'
  end.

Definition get_planet_by_name (self : SolarSystem) (name' : string)
  : result (option Planet) :=
  get_planet_by_name_loop (planets self) name'.

(** [PlanetType.value], and the members in the order of iteration. *)
Definition value (t : PlanetType) : string :=
  match t with
  | TERRESTRIAL => "Terrestrial (Rocky)"
  | GASEOUS => "Gaseous (Gas Giant)"
  | ICE_GIANT => "Ice Giant"
  end.

Definition members : list PlanetType := [TERRESTRIAL; GASEOUS; ICE_GIANT].

Definition PlanetType_eqb (a b : PlanetType) : bool :=
  match a, b with
  | TERRESTRIAL, TERRESTRIAL | GASEOUS, GASEOUS | ICE_GIANT, ICE_GIANT => true
  | _, _ => false
  end.

(** The comprehension of [classify_by_type]:
    [[p.name for p in self.planets if p.planet_type == ptype]]. *)
Definition planets_of_type (self : SolarSystem) (ptype : PlanetType)
  : list string :=
  map name
    (filter (fun p => PlanetType_eqb (planet_type p) ptype) (planets self)).

(** [classify_by_type]: what it prints. *)
Definition classify_by_type (self : SolarSystem) : list line :=
  [ [Str (newline ++ str_mul "=" 60)];
    [Str (center "PLANETS CLASSIFIED BY TYPE" 60)];
    [Str (str_mul "=" 60)] ]
  ++ flat_map
       (fun ptype =>
          [Str (newline ++ value ptype ++ ":")]
          :: map (fun planet => [Str ("  - " ++ planet)])
               (planets_of_type self ptype))
       members.

(** [compare_planets]: what it prints.  A [Planet] is true and [None] is
    false, so the first branch is taken when either lookup found
    nothing. *)
Definition compare_planets (self : SolarSystem)
           (planet1_name planet2_name : string) : result (list line) :=
  p1 <- get_planet_by_name self planet1_name ;;
  p2 <- get_planet_by_name self planet2_name ;;
  match p1, p2 with
  | Some p1, Some p2 =>
      Ok [ [Str (newline ++ str_mul "=" 60)];
           [Str (center ("COMPARISON: " ++ upper (name p1) ++ " vs "
                         ++ upper (name p2)) 60)];
           [Str (str_mul "=" 60)];
           [Str (newline ++ "Diameter: " ++ name p1 ++ " = "
                 ++ format_grouped (diameter_km p1) ++ " km | "
                 ++ name p2 ++ " = "
                 ++ format_grouped (diameter_km p2) ++ " km")];
           [Str ("Distance from Sun: " ++ name p1 ++ " = ");
            FloatStr (distance_from_sun_au p1);
            Str (" AU | " ++ name p2 ++ " = ");
            FloatStr (distance_from_sun_au p2);
            Str " AU"];
           [Str ("Moons: " ++ name p1 ++ " = " ++ str_of_int (moons p1)
                 ++ " | " ++ name p2 ++ " = " ++ str_of_int (moons p2))];
           [Str ("Orbital Period: " ++ name p1 ++ " = ");
            FloatFmt ".1f" (orbital_period_days p1);
            Str (" days | " ++ name p2 ++ " = ");
            FloatFmt ".1f" (orbital_period_days p2);
            Str " days"];
           [Str (str_mul "=" 60)] ]
  | _, _ => Ok [ [Str "One or both planets not found!"] ]
  end.

End SolarSystem.

(** ** The scalar formulas over the real numbers

    The same expressions as in [Calculator], read in exact arithmetic: no
    rounding, no overflow.  A square root of a negative number and a
    division by zero have Rocq's conventional values here; the statements
    below keep to the arguments where the Python functions return. *)

Module Exact.

Definition AU : R := 149597870.7%R.
Definition G : R := 6.67430e-11%R.
Definition SUN_MASS : R := 1.989e30%R.

Definition orbital_period_kepler (semi_major_axis_au : R) : R :=
  sqrt (semi_major_axis_au ^ 3).

Definition orbital_velocity (semi_major_axis_au : R) : R :=
  let semi_major_axis_m := (semi_major_axis_au * AU * 1000)%R in
  let velocity_m_s := sqrt (G * SUN_MASS / semi_major_axis_m) in
  (velocity_m_s / 1000)%R.

Definition distance_au_to_km (distance_au : R) : R := (distance_au * AU)%R.

Definition distance_km_to_au (distance_km : R) : R := (distance_km / AU)%R.

End Exact.

(** ** The statements of the specification, as properties of the code *)

Module Spec.

(** A name is known when some catalog entry equals it once both are
    lower-cased; the two modules list the same eight names. *)
Definition matches (entry name : string) : Prop := lower entry = lower name.

Definition unknown (name : string) : Prop :=
  forall entry, In entry Calculator.keys -> ~ matches entry name.

(** An operation on planet names is case-insensitive when every spelling
    that matches a catalog name gives what the catalog name gives. *)
Definition case_insensitive {A : Type} (f : string -> A) : Prop :=
  forall n, In n Calculator.keys ->
  forall m, matches n m -> f m = f n.

(** A call fails when it raises, whatever it raises. *)
Definition fails {A : Type} (r : result A) : Prop :=
  exists e, r = Raise e.


(** The two records of one planet: the value under its name in [PLANETS]
    and the [Planet] that the class finds under that name. *)
Definition both (n : string)
  : option (Calculator.planet_data * SolarSystem.Planet) :=
  match Calculator.dict_get Calculator.PLANETS n,
        SolarSystem.get_planet_by_name SolarSystem.__init__ n with
  | Some c, Ok (Some p) => Some (c, p)
  | _, _ => None
  end.

(** Agreement of the two records on the diameter (twice the radius) and on
    the number of moons. *)
Definition same_diameter (n : string) : bool :=
  match both n with
  | Some (c, p) =>
      (SolarSystem.diameter_km p =? 2 * Calculator.radius_km c)%Z
  | None => false
  end.

Definition same_moons (n : string) : bool :=
  match both n with
  | Some (c, p) => (SolarSystem.moons p =? Calculator.moons c)%Z
  | None => false
  end.

Definition same_distance (n : string) : bool :=
  match both n with
  | Some (c, p) =>
      (SolarSystem.distance_from_sun_au p =? Calculator.distance_au c)%float
  | None => false
  end.

(** Not below zero, for a value in its specification form: a NaN, a zero
    of either sign, or a value with the sign bit clear. *)
Definition sf_not_negative (x : spec_float) : Prop :=
  SFltb x (S754_zero false) = false.

(** A list of floats in strictly increasing order. *)
Fixpoint increasing (l : list float) : bool :=
  match l with
  | x :: (y :: _) as rest => (x <? y)%float && increasing rest
  | _ => true
  end.

(** The last character of a string, if it has one. *)
Fixpoint last_char (s : string) : option ascii :=
  match s with
  | EmptyString => None
  | String c EmptyString => Some c
  | String _ s' => last_char s'
  end.

(** The float that a number of the catalog stands for. *)
Definition number_float (v : number) : float :=
  match v with
  | Int z => to_float z
  | Float f => f
  end.


(** The line that [classify_by_type] prints for one planet. *)
Definition item_line (planet : string) : line := [Str ("  - " ++ planet)].

End Spec.
Import Spec.

(** ** Dictionaries and the name guard *)

Section Dict.

Context {V : Type}.
Implicit Types (d : list (string * V)) (k : string) (v : V).

Lemma dict_get_Some_In d k v :
  Calculator.dict_get d k = Some v -> In (k, v) d.
Proof.
  induction d as [|[k' v'] d IH]; simpl; [discriminate|].
  destruct (String.eqb k' k) eqn:E.
  - apply String.eqb_eq in E. intros [= ->]. left. now subst.
  - intros H. right. auto.
Qed.

Lemma dict_get_None d k :
  ~ In k (map fst d) -> Calculator.dict_get d k = None.
Proof.
  induction d as [|[k' v'] d IH]; simpl; [reflexivity|].
  intros H. destruct (String.eqb k' k) eqn:E.
  - apply String.eqb_eq in E. tauto.
  - apply IH. tauto.
Qed.

Lemma contains_false d k :
  ~ In k (map fst d) -> Calculator.contains d k = false.
Proof.
  intros H. unfold Calculator.contains. now rewrite dict_get_None.
Qed.

Lemma contains_true_In d k :
  Calculator.contains d k = true -> In k (map fst d).
Proof.
  unfold Calculator.contains.
  destruct (Calculator.dict_get d k) as [v|] eqn:E; [|discriminate].
  intros _. apply dict_get_Some_In in E.
  change k with (fst (k, v)). now apply in_map.
Qed.

End Dict.

Lemma check_planet_unknown (planet_name : string) :
  ~ In planet_name Calculator.keys ->
  Calculator.check_planet planet_name
  = Raise (Calculator.not_found planet_name).
Proof.
  intros H. unfold Calculator.check_planet.
  now rewrite (contains_false Calculator.PLANETS planet_name H).
Qed.

(** The guard lets through the keys of [PLANETS] and nothing else. *)
Lemma check_planet_known (planet_name : string) :
  Calculator.check_planet planet_name = Ok tt
  <-> In planet_name Calculator.keys.
Proof.
  unfold Calculator.check_planet. split.
  - destruct (Calculator.contains Calculator.PLANETS planet_name) eqn:E;
      [|discriminate].
    intros _. now apply contains_true_In.
  - intros Hin. simpl in Hin.
    repeat (destruct Hin as [<-|Hin]; [reflexivity|]). contradiction.
Qed.

(** Away from the keys of [PLANETS], each of the four functions stops at
    its guard. *)
Lemma calculator_not_found (planet_name : string) :
  ~ In planet_name Calculator.keys ->
  Calculator.escape_velocity planet_name
  = Raise (Calculator.not_found planet_name)
  /\ Calculator.surface_gravity planet_name
     = Raise (Calculator.not_found planet_name)
  /\ Calculator.planetary_info planet_name
     = Raise (Calculator.not_found planet_name)
  /\ Calculator.habitability_check planet_name
     = Raise (Calculator.not_found planet_name).
Proof.
  intros H. apply check_planet_unknown in H.
  unfold Calculator.escape_velocity, Calculator.surface_gravity,
    Calculator.planetary_info, Calculator.habitability_check.
  rewrite H. simpl. auto.
Qed.

(** The planets of the class carry the keys of the dictionary, in the same
    order. *)
Lemma names_are_keys :
  map SolarSystem.name SolarSystem._create_planets = Calculator.keys.
Proof. reflexivity. Qed.

(** ** Lookup by name in [SolarSystem] *)

Lemma get_planet_by_name_loop_lower (ps : list SolarSystem.Planet)
      (n m : string) :
  lower m = lower n ->
  SolarSystem.get_planet_by_name_loop ps m
  = SolarSystem.get_planet_by_name_loop ps n.
Proof.
  intros H. induction ps as [|p ps IH]; simpl; [reflexivity|].
  now rewrite H, IH.
Qed.

Lemma get_planet_by_name_loop_None (ps : list SolarSystem.Planet)
      (n : string) :
  (forall entry, In entry (map SolarSystem.name ps) ->
                 lower entry <> lower n) ->
  SolarSystem.get_planet_by_name_loop ps n = Ok None.
Proof.
  induction ps as [|p ps IH]; simpl; intros H; [reflexivity|].
  destruct (String.eqb (lower (SolarSystem.name p)) (lower n)) eqn:E.
  - apply String.eqb_eq in E. exfalso. apply (H (SolarSystem.name p)); auto.
  - apply IH. intros entry Hin. apply H. now right.
Qed.

Lemma get_planet_by_name_loop_Some (ps : list SolarSystem.Planet)
      (n : string) (p : SolarSystem.Planet) :
  SolarSystem.get_planet_by_name_loop ps n = Ok (Some p) ->
  In p ps /\ lower (SolarSystem.name p) = lower n.
Proof.
  induction ps as [|q ps IH]; simpl; [discriminate|].
  destruct (String.eqb (lower (SolarSystem.name q)) (lower n)) eqn:E.
  - apply String.eqb_eq in E. intros [= <-]. auto.
  - intros H. destruct (IH H). auto.
Qed.

(** [None] is returned for the names that match no planet, and only for
    them. *)
Lemma get_planet_by_name_None_iff (name : string) :
  SolarSystem.get_planet_by_name SolarSystem.__init__ name = Ok None
  <-> unknown name.
Proof.
  unfold SolarSystem.get_planet_by_name. split.
  - intros Hnone entry Hin Hm. unfold matches in Hm.
    rewrite <- names_are_keys in Hin.
    apply in_map_iff in Hin. destruct Hin as (p & <- & Hp).
    assert (Hloop : SolarSystem.get_planet_by_name_loop
                      (SolarSystem.planets SolarSystem.__init__)
                      (SolarSystem.name p) = Ok None)
      by (rewrite <- Hnone; now apply get_planet_by_name_loop_lower).
    clear - Hp Hloop. simpl in Hp.
    repeat (destruct Hp as [<-|Hp]; [vm_compute in Hloop; discriminate|]).
    contradiction.
  - intros Hu. apply get_planet_by_name_loop_None.
    change (map SolarSystem.name
              (SolarSystem.planets SolarSystem.__init__))
      with (map SolarSystem.name SolarSystem._create_planets).
    rewrite names_are_keys. exact Hu.
Qed.

(** A planet that is returned carries a name that matches the argument. *)
Lemma get_planet_by_name_matches (self : SolarSystem.SolarSystem)
      (name : string) (p : SolarSystem.Planet) :
  SolarSystem.get_planet_by_name self name = Ok (Some p) ->
  In p (SolarSystem.planets self) /\ matches (SolarSystem.name p) name.
Proof. apply get_planet_by_name_loop_Some. Qed.

(** *** C1 *)

(** Counterexample to C1 as stated: EARTH matches the catalog name Earth,
    yet [escape_velocity] returns for Earth and raises for EARTH; the
    calculator compares names as spelled. *)
Lemma escape_velocity_not_case_insensitive :
  ~ case_insensitive Calculator.escape_velocity.
Proof.
  intros H.
  specialize (H "Earth"%string).
  assert (Hin : In "Earth"%string Calculator.keys) by (simpl; tauto).
  specialize (H Hin "EARTH"%string eq_refl).
  vm_compute in H. discriminate H.
Qed.

(** C1, amended: [SolarSystem.get_planet_by_name] is case-insensitive, for
    every instance and every two spellings with the same lower case; on the
    catalog each name, its upper case and its lower case all return the
    planet of that name; the calculator's functions take a name only as
    spelled in [PLANETS] and raise on every other spelling. *)
Theorem lookup_case :
  (forall (self : SolarSystem.SolarSystem) (n m : string),
      lower m = lower n ->
      SolarSystem.get_planet_by_name self m
      = SolarSystem.get_planet_by_name self n)
  /\ (forall n, In n Calculator.keys ->
        exists p, SolarSystem.name p = n
          /\ SolarSystem.get_planet_by_name SolarSystem.__init__ n
             = Ok (Some p)
          /\ SolarSystem.get_planet_by_name SolarSystem.__init__ (upper n)
             = Ok (Some p)
          /\ SolarSystem.get_planet_by_name SolarSystem.__init__ (lower n)
             = Ok (Some p))
  /\ (forall m, ~ In m Calculator.keys ->
        Calculator.escape_velocity m = Raise (Calculator.not_found m)
        /\ Calculator.surface_gravity m = Raise (Calculator.not_found m)
        /\ Calculator.planetary_info m = Raise (Calculator.not_found m)
        /\ Calculator.habitability_check m
           = Raise (Calculator.not_found m)).
Proof.
  split; [|split].
  - intros self n m H. unfold SolarSystem.get_planet_by_name.
    now apply get_planet_by_name_loop_lower.
  - intros n Hin. simpl in Hin.
    repeat (destruct Hin as [<-|Hin];
            [eexists; repeat split; vm_compute; reflexivity|]).
    contradiction.
  - exact calculator_not_found.
Qed.

Lemma lookup_case_witness :
  SolarSystem.get_planet_by_name SolarSystem.__init__ "nEpTuNe"
  = SolarSystem.get_planet_by_name SolarSystem.__init__ "Neptune"
  /\ Calculator.planetary_info "nEpTuNe"
     = Raise (Calculator.not_found "nEpTuNe").
Proof.
  split.
  - apply (proj1 lookup_case). reflexivity.
  - apply (proj2 (proj2 lookup_case)).
    simpl. intros H.
    repeat (destruct H as [H|H]; [discriminate H|]). exact H.
Defined.

(** *** C2 *)

(** Counterexample to C2 as stated: Pluto matches no catalog entry, and
    [get_planet_by_name] does not fail on it: the call returns, with the
    value [None]. *)
Lemma get_planet_by_name_unknown_returns :
  ~ (forall name, unknown name ->
       fails (Calculator.escape_velocity name)
       /\ fails (Calculator.surface_gravity name)
       /\ fails (Calculator.planetary_info name)
       /\ fails (Calculator.habitability_check name)
       /\ fails
            (SolarSystem.get_planet_by_name SolarSystem.__init__ name)).
Proof.
  intros H.
  assert (Hu : unknown "Pluto").
  { intros entry Hin. unfold matches. simpl in Hin.
    repeat (destruct Hin as [<-|Hin]; [discriminate|]). contradiction. }
  destruct (H "Pluto"%string Hu) as (_ & _ & _ & _ & e & He).
  vm_compute in He. discriminate He.
Qed.

(** C2, amended: for every name that is not a key of [PLANETS] as spelled,
    [escape_velocity], [surface_gravity], [planetary_info] and
    [habitability_check] raise the one [ValueError] that names the planet,
    and return nothing; [get_planet_by_name] raises nothing: for a name
    that matches no planet after lower-casing it returns [None]. *)
Theorem unknown_name :
  forall name,
    (~ In name Calculator.keys ->
       Calculator.escape_velocity name = Raise (Calculator.not_found name)
       /\ Calculator.surface_gravity name
          = Raise (Calculator.not_found name)
       /\ Calculator.planetary_info name
          = Raise (Calculator.not_found name)
       /\ Calculator.habitability_check name
          = Raise (Calculator.not_found name))
    /\ (unknown name ->
          SolarSystem.get_planet_by_name SolarSystem.__init__ name
          = Ok None).
Proof.
  intros name. split.
  - apply calculator_not_found.
  - apply get_planet_by_name_None_iff.
Qed.

Lemma unknown_name_witness :
  Calculator.habitability_check "Pluto"
  = Raise (ValueError "Planet Pluto not found")
  /\ SolarSystem.get_planet_by_name SolarSystem.__init__ "Pluto" = Ok None.
Proof.
  split.
  - apply (proj1 (unknown_name "Pluto")).
    simpl. intros H.
    repeat (destruct H as [H|H]; [discriminate H|]). exact H.
  - apply (proj2 (unknown_name "Pluto")).
    intros entry Hin. unfold matches. simpl in Hin.
    repeat (destruct Hin as [<-|Hin]; [discriminate|]). contradiction.
Defined.

(** ** Signs of binary64 values

    What the interpreter's [**] and [math.sqrt] need to know of a
    non-negative argument, from the specification of the primitive
    operations. *)

Section Sign.

Lemma ltb_zero_spec (x : float) :
  (x <? 0)%float = SFltb (Prim2SF x) (S754_zero false).
Proof. rewrite ltb_spec. reflexivity. Qed.


Lemma abs_not_negative (x : float) : (abs x <? 0)%float = false.
Proof.
  rewrite ltb_zero_spec, abs_spec.
  destruct (Prim2SF x) as [s|s| |s m e]; reflexivity.
Qed.

Lemma binary_round_aux_not_negative (mx ex : Z) (lx : location) :
  sf_not_negative (binary_round_aux prec emax false mx ex lx).
Proof.
  unfold sf_not_negative, binary_round_aux.
  destruct (shr_fexp prec emax mx ex lx) as [mrs' e'].
  destruct (shr_fexp prec emax _ e' loc_Exact) as [mrs'' e''].
  destruct (shr_m mrs'') as [|m|m]; try reflexivity.
  destruct (e'' <=? emax - prec)%Z; reflexivity.
Qed.

Lemma binary_round_not_negative (m : positive) (e : Z) :
  sf_not_negative (binary_round prec emax false m e).
Proof.
  unfold binary_round.
  destruct (shl_align m e _) as [mz ez].
  apply binary_round_aux_not_negative.
Qed.

Lemma binary_normalize_not_negative (m : Z) (e : Z) :
  (0 <= m)%Z -> sf_not_negative (binary_normalize prec emax m e false).
Proof.
  destruct m as [|m|m]; intros H; simpl.
  - reflexivity.
  - apply binary_round_not_negative.
  - lia.
Qed.

(** A rounded value with the sign bit clear is, as a spec float, of one of
    these shapes. *)
Lemma not_negative_shape (x : spec_float) :
  sf_not_negative x ->
  x = S754_nan \/ (exists s, x = S754_zero s) \/ x = S754_infinity false
  \/ exists m e, x = S754_finite false m e.
Proof.
  unfold sf_not_negative.
  destruct x as [s|s| |s m e]; try destruct s; cbv; try discriminate;
    eauto 8.
Qed.

Lemma of_uint63_not_negative (n : PrimInt63.int) :
  sf_not_negative (Prim2SF (of_uint63 n)).
Proof.
  rewrite of_uint63_spec. apply binary_normalize_not_negative.
  apply Uint63.to_Z_bounded.
Qed.

Lemma ldexp_not_negative (f : float) (e : Z) :
  sf_not_negative (Prim2SF f) -> sf_not_negative (Prim2SF (Z.ldexp f e)).
Proof.
  intros H. rewrite Z_ldexp_spec. unfold SFldexp.
  destruct (not_negative_shape _ H) as [E|[[s E]|[E|(m & e' & E)]]];
    rewrite E in *; try exact H.
  apply binary_round_not_negative.
Qed.

(** Back in [float]: what [SF2Prim] makes of such a value is not below
    zero. *)
Lemma SF2Prim_not_negative (x : spec_float) :
  sf_not_negative x -> (SF2Prim x <? 0)%float = false.
Proof.
  intros H.
  destruct (not_negative_shape _ H) as [E|[[s E]|[E|(m & e & E)]]];
    subst x; try reflexivity.
  - destruct s; reflexivity.
  - simpl. rewrite ltb_zero_spec.
    apply ldexp_not_negative, of_uint63_not_negative.
Qed.

Lemma libm_pow_not_negative (x : float) (n : positive) :
  (libm_pow (abs x) n <? 0)%float = false.
Proof.
  unfold libm_pow.
  destruct (Prim2SF (abs x)) as [s|s| |s m e];
    try apply abs_not_negative.
  apply SF2Prim_not_negative, binary_normalize_not_negative. lia.
Qed.

(** [a ** n] of a float that is not below zero is not below zero. *)
Lemma float_pow_not_negative (a : float) (n : positive) (c : float) :
  (a <? 0)%float = false ->
  float_pow a n = Ok c -> (c <? 0)%float = false.
Proof.
  intros Ha. unfold float_pow.
  set (odd := Z.odd (Z.pos n)). rewrite Ha. cbn [andb].
  destruct (is_nan a); [intros [= <-]; exact Ha|].
  destruct (is_infinity a).
  { intros [= <-]. destruct odd; [exact Ha|]. apply abs_not_negative. }
  destruct (a =? 0)%float.
  { intros [= <-]. destruct odd; [exact Ha|reflexivity]. }
  destruct (abs a =? 1)%float; [intros [= <-]; reflexivity|].
  destruct (is_infinity (libm_pow (abs a) n)); [discriminate|].
  intros [= <-]. apply libm_pow_not_negative.
Qed.

End Sign.

Lemma float_pow_raises (a : float) (n : positive) (e : exn) :
  float_pow a n = Raise e ->
  e = OverflowError "(34, 'Numerical result out of range')"
  /\ is_infinity (libm_pow (abs a) n) = true.
Proof.
  unfold float_pow.
  destruct (is_nan a); [discriminate|].
  destruct (is_infinity a); [discriminate|].
  destruct (a =? 0)%float; [discriminate|].
  destruct (abs a =? 1)%float; [discriminate|].
  destruct (is_infinity (libm_pow (abs a) n)); [|discriminate].
  intros [= <-]. auto.
Qed.

(** *** C3 *)




(** ** The catalog, entry by entry *)

(** An entry of [PLANETS] is one of the eight pairs of the display.  The
    tactic splits a goal along them. *)
Lemma dict_get_PLANETS (n : string) (p : Calculator.planet_data) :
  Calculator.dict_get Calculator.PLANETS n = Some p ->
  In (n, p) Calculator.PLANETS.
Proof. apply dict_get_Some_In. Qed.

Ltac each_planet H :=
  apply dict_get_PLANETS in H; simpl in H;
  repeat (destruct H as [H|H]; [injection H as <- <-|]);
  [ .. | contradiction ].

(** *** C4 *)

(** C4: for every entry of [PLANETS], [escape_velocity] returns
    [11.186 * sqrt(mass_earth / radius_ratio)] with
    [radius_ratio = radius_km / Earth's radius_km]; for Earth the value is
    the constant 11.186 itself. *)
Theorem escape_velocity_spec :
  forall n p earth,
    Calculator.dict_get Calculator.PLANETS n = Some p ->
    Calculator.dict_get Calculator.PLANETS "Earth" = Some earth ->
    let radius_ratio :=
      (to_float (Calculator.radius_km p)
       / to_float (Calculator.radius_km earth))%float in
    Calculator.escape_velocity n
    = Ok (11.186
          * PrimFloat.sqrt (Calculator.mass_earth p / radius_ratio))%float
    /\ Calculator.escape_velocity "Earth" = Ok 11.186%float.
Proof.
  intros n p earth Hp Hearth.
  vm_compute in Hearth. injection Hearth as <-.
  each_planet Hp; split; vm_compute; reflexivity.
Qed.

Lemma escape_velocity_spec_witness :
  Calculator.escape_velocity "Mars"
  = Ok (11.186 * PrimFloat.sqrt (0.107 / (3390 / 6371)))%float
  /\ Calculator.escape_velocity "Earth" = Ok 11.186%float.
Proof.
  exact (escape_velocity_spec "Mars"
           (Calculator.mk_planet_data 1.524 0.107 3390 (Float 24.6)
              (Float 686.97) 2)
           (Calculator.mk_planet_data 1.0 1.0 6371 (Int 24)
              (Float 365.25) 1)
           eq_refl eq_refl).
Defined.

(** *** C5 *)

(** C5: for every entry of [PLANETS], [surface_gravity] returns
    [mass_earth / radius_ratio ** 2] with
    [radius_ratio = radius_km / Earth's radius_km]; for Earth the value is
    exactly 1.0. *)
Theorem surface_gravity_spec :
  forall n p earth,
    Calculator.dict_get Calculator.PLANETS n = Some p ->
    Calculator.dict_get Calculator.PLANETS "Earth" = Some earth ->
    let radius_ratio :=
      (to_float (Calculator.radius_km p)
       / to_float (Calculator.radius_km earth))%float in
    (exists square,
        float_pow radius_ratio 2 = Ok square
        /\ square = (radius_ratio * radius_ratio)%float
        /\ Calculator.surface_gravity n
           = Ok (Calculator.mass_earth p / square)%float)
    /\ Calculator.surface_gravity "Earth" = Ok 1%float.
Proof.
  intros n p earth Hp Hearth.
  vm_compute in Hearth. injection Hearth as <-.
  each_planet Hp; (split; [eexists; split; [vm_compute; reflexivity|]|]);
    try split; vm_compute; reflexivity.
Qed.

Lemma surface_gravity_spec_witness :
  (exists square,
      float_pow (69911 / 6371) 2 = Ok square
      /\ square = ((69911 / 6371) * (69911 / 6371))%float
      /\ Calculator.surface_gravity "Jupiter" = Ok (317.8 / square)%float)
  /\ Calculator.surface_gravity "Earth" = Ok 1%float.
Proof.
  exact (surface_gravity_spec "Jupiter"
           (Calculator.mk_planet_data 5.203 317.8 69911 (Float 9.9)
              (Int 4331) 95)
           (Calculator.mk_planet_data 1.0 1.0 6371 (Int 24)
              (Float 365.25) 1)
           eq_refl eq_refl).
Defined.

(** *** C7 *)

(** What [habitability_check] returns for each planet. *)
Lemma habitability_table :
  map (fun n =>
         match Calculator.habitability_check n with
         | Ok h => Some (Calculator.in_habitable_zone h,
                         Calculator.suitable_surface_gravity h,
                         Calculator.habitability_score h)
         | Raise _ => None
         end) Calculator.keys
  = [ Some (false, false, 1%Z); Some (false, true, 2%Z);
      Some (true, true, 3%Z); Some (false, false, 1%Z);
      Some (false, false, 1%Z); Some (false, true, 2%Z);
      Some (false, true, 2%Z); Some (false, true, 2%Z) ].
Proof. vm_compute. reflexivity. Qed.

(** C7: for every entry of [PLANETS], [habitability_check] returns a
    record whose [in_habitable_zone] is [0.95 < distance_au < 1.37], whose
    [suitable_surface_gravity] is [0.5 < g < 2.0] for the [g] that
    [surface_gravity] returns, and whose score counts these two and the
    constant [True] of the stable orbit; Earth scores 3 with both true,
    and Mercury is outside the zone. *)
Theorem habitability_check_spec :
  forall n p,
    Calculator.dict_get Calculator.PLANETS n = Some p ->
    (exists g,
        Calculator.surface_gravity n = Ok g
        /\ let zone := (0.95 <? Calculator.distance_au p)%float
                       && (Calculator.distance_au p <? 1.37)%float in
           let gravity := (0.5 <? g)%float && (g <? 2.0)%float in
           let has_stable_orbit := true in
           Calculator.habitability_check n
           = Ok (Calculator.mk_habitability n zone gravity
                   (int_of_bool zone + int_of_bool gravity
                    + int_of_bool has_stable_orbit)
                   Calculator.disclaimer))
    /\ Calculator.habitability_check "Earth"
       = Ok (Calculator.mk_habitability "Earth" true true 3
               Calculator.disclaimer)
    /\ (exists h, Calculator.habitability_check "Mercury" = Ok h
                  /\ Calculator.in_habitable_zone h = false).
Proof.
  intros n p Hp.
  each_planet Hp;
    (split; [eexists; split; [vm_compute; reflexivity|]|split;
             [|eexists; split]]);
    vm_compute; reflexivity.
Qed.

Lemma habitability_check_spec_witness :
  (exists g,
      Calculator.surface_gravity "Venus" = Ok g
      /\ Calculator.habitability_check "Venus"
         = Ok (Calculator.mk_habitability "Venus"
                 ((0.95 <? 0.723)%float && (0.723 <? 1.37)%float)
                 ((0.5 <? g)%float && (g <? 2.0)%float)
                 (int_of_bool ((0.95 <? 0.723)%float && (0.723 <? 1.37)%float)
                  + int_of_bool ((0.5 <? g)%float && (g <? 2.0)%float)
                  + int_of_bool true)
                 Calculator.disclaimer))
  /\ Calculator.habitability_check "Earth"
     = Ok (Calculator.mk_habitability "Earth" true true 3
             Calculator.disclaimer)
  /\ (exists h, Calculator.habitability_check "Mercury" = Ok h
                /\ Calculator.in_habitable_zone h = false).
Proof.
  exact (habitability_check_spec "Venus"
           (Calculator.mk_planet_data 0.723 0.815 6052 (Int 5832)
              (Float 224.70) 0)
           eq_refl).
Defined.

(** The verdict on gravity does not hang on the last bit of the square:
    with the square one binary64 step lower or higher, as a C library
    within one unit in the last place may return it, every planet keeps
    its verdict. *)
Lemma suitable_gravity_robust :
  forall n p h square,
    Calculator.dict_get Calculator.PLANETS n = Some p ->
    Calculator.habitability_check n = Ok h ->
    let radius_ratio :=
      (to_float (Calculator.radius_km p) / to_float 6371)%float in
    In square [ next_down (radius_ratio * radius_ratio)%float;
                (radius_ratio * radius_ratio)%float;
                next_up (radius_ratio * radius_ratio)%float ] ->
    let g := (Calculator.mass_earth p / square)%float in
    (0.5 <? g)%float && (g <? 2.0)%float
    = Calculator.suitable_surface_gravity h.
Proof.
  intros n p h square Hp Hh.
  each_planet Hp; vm_compute in Hh; injection Hh as <-;
    intros radius_ratio Hin; simpl in Hin;
    repeat (destruct Hin as [<-|Hin]; [vm_compute; reflexivity|]);
    contradiction.
Qed.

(** *** C10 *)

(** Whatever the name, a returned score is 1, 2 or 3: the list that is
    summed ends with the constant [True]. *)
Lemma habitability_score_bounds (n : string) (h : Calculator.habitability) :
  Calculator.habitability_check n = Ok h ->
  (1 <= Calculator.habitability_score h <= 3)%Z.
Proof.
  unfold Calculator.habitability_check.
  destruct (Calculator.check_planet n); [|discriminate]. simpl.
  destruct (Calculator.planetary_info n) as [i|]; [|discriminate]. simpl.
  intros [= <-]. simpl.
  destruct ((0.95 <? _)%float && _), ((0.5 <? _)%float && _);
    vm_compute; split; discriminate.
Qed.

(** C10: for every planet name of the catalog, [habitability_check]
    returns, and its score is between 1 and 3: never 0. *)
Theorem habitability_score_range :
  forall n, In n Calculator.keys ->
    exists h, Calculator.habitability_check n = Ok h
      /\ (1 <= Calculator.habitability_score h <= 3)%Z
      /\ Calculator.habitability_score h <> 0%Z.
Proof.
  intros n Hin.
  assert (E : exists h, Calculator.habitability_check n = Ok h).
  { simpl in Hin.
    repeat (destruct Hin as [<-|Hin]; [eexists; vm_compute; reflexivity|]).
    contradiction. }
  destruct E as [h E]. exists h.
  pose proof (habitability_score_bounds n h E) as Hb.
  split; [exact E|]. split; lia.
Qed.

Lemma habitability_score_range_witness :
  exists h, Calculator.habitability_check "Mars" = Ok h
    /\ (1 <= Calculator.habitability_score h <= 3)%Z
    /\ Calculator.habitability_score h <> 0%Z.
Proof.
  apply habitability_score_range. simpl. tauto.
Defined.

(** ** The formulas over the reals *)





(** *** C6 *)




(** *** C8 *)




(** *** C9 *)

(** Counterexample to C9 as stated: the two records of Uranus give one
    diameter, 50724 km, which is twice the radius of 25362 km. *)
Lemma uranus_diameters_agree :
  ~ (forall c p,
       both "Uranus" = Some (c, p) ->
       SolarSystem.diameter_km p <> (2 * Calculator.radius_km c)%Z
       /\ SolarSystem.moons p <> Calculator.moons c).
Proof.
  intros H.
  destruct (H _ _ eq_refl) as [Hd _]. apply Hd. reflexivity.
Qed.

(** C9, amended: the two sources carry independent catalogs that disagree
    for the same planet.  For Uranus the moon counts differ (27 and 28) and
    so do the distances (19.191 and 19.19 AU), while the diameter is the
    same in both; the diameters differ for Mercury, Mars, Jupiter and
    Saturn, the moon counts for Uranus and Neptune, the distances for every
    planet but Earth. *)
Theorem catalogs_disagree :
  (exists c p,
      both "Uranus" = Some (c, p)
      /\ Calculator.moons c = 27%Z /\ SolarSystem.moons p = 28%Z
      /\ Calculator.distance_au c = 19.191%float
      /\ SolarSystem.distance_from_sun_au p = 19.19%float
      /\ (Calculator.distance_au c =? SolarSystem.distance_from_sun_au p)%float
         = false
      /\ (2 * Calculator.radius_km c)%Z = 50724%Z
      /\ SolarSystem.diameter_km p = 50724%Z)
  /\ filter (fun n => negb (same_diameter n)) Calculator.keys
     = [ "Mercury"; "Mars"; "Jupiter"; "Saturn" ]%string
  /\ filter (fun n => negb (same_moons n)) Calculator.keys
     = [ "Uranus"; "Neptune" ]%string
  /\ filter (fun n => negb (same_distance n)) Calculator.keys
     = [ "Mercury"; "Venus"; "Mars"; "Jupiter"; "Saturn"; "Uranus";
         "Neptune" ]%string.
Proof.
  split.
  - do 2 eexists. split; [reflexivity|]. repeat split.
  - repeat split; vm_compute; reflexivity.
Qed.


(** ** Beyond the claims: the calculator *)

(** *** Which calls return *)

Lemma keys_dec (n : string) : {In n Calculator.keys} + {~ In n Calculator.keys}.
Proof. apply in_dec, string_dec. Qed.

(** X1: each of the four functions that take a planet name returns a value
    exactly on the keys of [PLANETS]: no entry of the catalog runs into a
    division by zero, an overflow or a domain error, and no other name gets
    past the guard. *)
Theorem calculator_returns_iff_key :
  forall n,
    (In n Calculator.keys <-> exists v, Calculator.escape_velocity n = Ok v)
    /\ (In n Calculator.keys
        <-> exists g, Calculator.surface_gravity n = Ok g)
    /\ (In n Calculator.keys
        <-> exists i, Calculator.planetary_info n = Ok i)
    /\ (In n Calculator.keys
        <-> exists h, Calculator.habitability_check n = Ok h).
Proof.
  intros n.
  assert (Hret : In n Calculator.keys ->
                 (exists v, Calculator.escape_velocity n = Ok v)
                 /\ (exists g, Calculator.surface_gravity n = Ok g)
                 /\ (exists i, Calculator.planetary_info n = Ok i)
                 /\ (exists h, Calculator.habitability_check n = Ok h)).
  { intros Hin. simpl in Hin.
    repeat (destruct Hin as [<-|Hin];
            [repeat split; eexists; vm_compute; reflexivity|]).
    contradiction. }
  destruct (keys_dec n) as [Hin|Hout].
  - destruct (Hret Hin) as (H1 & H2 & H3 & H4). tauto.
  - destruct (calculator_not_found n Hout) as (E1 & E2 & E3 & E4).
    rewrite E1, E2, E3, E4.
    repeat split; intros H; try contradiction;
      destruct H as [x Hx]; discriminate Hx.
Qed.

(** *** [planetary_info] and the single functions *)





(** *** The one planet with the full score *)

(** X3: whatever the name, a record returned by [habitability_check] has
    the full score 3 exactly for Earth, and is in the habitable zone
    exactly for Earth. *)
Theorem earth_is_the_only_full_score :
  forall n h,
    Calculator.habitability_check n = Ok h ->
    (Calculator.habitability_score h = 3%Z <-> n = "Earth"%string)
    /\ (Calculator.in_habitable_zone h = true <-> n = "Earth"%string).
Proof.
  intros n h H.
  destruct (keys_dec n) as [Hin|Hout].
  - simpl in Hin.
    repeat (destruct Hin as [<-|Hin];
            [vm_compute in H; injection H as <-; cbn;
             repeat split; intros E; reflexivity || discriminate E|]).
    contradiction.
  - destruct (calculator_not_found n Hout) as (_ & _ & _ & E).
    rewrite E in H. discriminate H.
Qed.

Lemma earth_is_the_only_full_score_witness :
  exists h,
    Calculator.habitability_check "Venus" = Ok h
    /\ Calculator.habitability_score h <> 3%Z.
Proof.
  destruct (Calculator.habitability_check "Venus") as [h|e] eqn:E.
  - exists h. split; [reflexivity|].
    intros H3.
    apply (proj1 (earth_is_the_only_full_score "Venus" h E)) in H3.
    discriminate H3.
  - vm_compute in E. discriminate E.
Defined.

(** *** What the two orbital functions can return and raise *)

Section Outcomes.

(** A square root is never below zero. *)
Lemma sqrt_not_negative (x : float) : (PrimFloat.sqrt x <? 0)%float = false.
Proof.
  rewrite ltb_zero_spec, sqrt_spec. unfold SF64sqrt, SFsqrt.
  destruct (Prim2SF x) as [s|s| |s m e]; try destruct s; try reflexivity.
  destruct (SFsqrt_core_binary prec emax (Z.pos m) e) as [[mz ez] lz].
  apply binary_round_aux_not_negative.
Qed.

(** Dividing by a positive finite constant keeps a value from falling
    below zero. *)
Lemma div_positive_not_negative (x c : float) (m : positive) (e : Z) :
  Prim2SF c = S754_finite false m e ->
  (x <? 0)%float = false -> (x / c <? 0)%float = false.
Proof.
  intros Hc. rewrite !ltb_zero_spec, div_spec, Hc.
  unfold SF64div, SFdiv.
  destruct (Prim2SF x) as [s|s| |s mx ex]; try destruct s;
    try reflexivity; try (cbv; congruence).
  intros _. cbn [xorb].
  destruct (SFdiv_core_binary prec emax (Z.pos mx) ex (Z.pos m) e)
    as [[mz ez] lz].
  apply binary_round_aux_not_negative.
Qed.

(** A zero times a finite constant is a zero. *)
Lemma mul_zero_finite (x c : float) (s : bool) (m : positive) (e : Z) :
  Prim2SF c = S754_finite s m e ->
  (x =? 0)%float = true -> (x * c =? 0)%float = true.
Proof.
  intros Hc. rewrite !eqb_spec, mul_spec, Hc.
  change (Prim2SF 0) with (S754_zero false).
  unfold SF64mul, SFmul.
  destruct (Prim2SF x) as [sx|sx| |sx mx ex]; try destruct sx;
    cbv; congruence.
Qed.

Lemma math_sqrt_outcome (x : float) :
  (exists y, math_sqrt x = Ok y /\ (y <? 0)%float = false
             /\ (x <? 0)%float = false)
  \/ (math_sqrt x = Raise (ValueError "math domain error")
      /\ (x <? 0)%float = true).
Proof.
  unfold math_sqrt. destruct (x <? 0)%float; [right; auto|].
  left. eexists. repeat split. apply sqrt_not_negative.
Qed.

End Outcomes.

(** X4: [orbital_velocity] has three outcomes and no other.  It returns a
    velocity that is never below zero; it raises [ZeroDivisionError] when
    the axis in metres is zero, which it is for an axis of zero; it raises
    the [ValueError] of [math.sqrt] when the quotient under the root is
    below zero. *)
Theorem orbital_velocity_outcomes :
  (forall a,
      (exists v, Calculator.orbital_velocity a = Ok v
                 /\ (v <? 0)%float = false)
      \/ (Calculator.orbital_velocity a
          = Raise (ZeroDivisionError "float division by zero")
          /\ (a * Calculator.AU * 1000 =? 0)%float = true)
      \/ (Calculator.orbital_velocity a
          = Raise (ValueError "math domain error")
          /\ (Calculator.G * Calculator.SUN_MASS
              / (a * Calculator.AU * 1000) <? 0)%float = true))
  /\ (forall a, (a =? 0)%float = true ->
        Calculator.orbital_velocity a
        = Raise (ZeroDivisionError "float division by zero")).
Proof.
  assert (Hzero : forall a, (a =? 0)%float = true ->
                            (a * Calculator.AU * 1000 =? 0)%float = true).
  { intros a Ha.
    eapply mul_zero_finite; [vm_compute; reflexivity|].
    eapply mul_zero_finite; [vm_compute; reflexivity|exact Ha]. }
  split.
  - intros a. unfold Calculator.orbital_velocity, float_truediv.
    destruct (a * Calculator.AU * 1000 =? 0)%float; [right; left; auto|].
    cbn [bind].
    destruct (math_sqrt_outcome
                (Calculator.G * Calculator.SUN_MASS
                 / (a * Calculator.AU * 1000))%float)
      as [(y & -> & Hy & _)|[-> Hneg]].
    + left. eexists. split; [reflexivity|].
      eapply div_positive_not_negative; [vm_compute; reflexivity|exact Hy].
    + right; right. auto.
  - intros a Ha. unfold Calculator.orbital_velocity, float_truediv.
    now rewrite (Hzero a Ha).
Qed.

Lemma orbital_velocity_outcomes_witness :
  Calculator.orbital_velocity (-0)%float
  = Raise (ZeroDivisionError "float division by zero").
Proof.
  apply (proj2 orbital_velocity_outcomes). reflexivity.
Defined.

(** X5: [orbital_period_kepler] never returns a value below zero.  It
    returns, or raises [OverflowError] from the cube, or raises the
    [ValueError] of [math.sqrt], and this last only for an axis below
    zero. *)
Theorem orbital_period_kepler_outcomes :
  forall a,
    (exists y, Calculator.orbital_period_kepler a = Ok y
               /\ (y <? 0)%float = false)
    \/ Calculator.orbital_period_kepler a
       = Raise (OverflowError "(34, 'Numerical result out of range')")
    \/ (Calculator.orbital_period_kepler a
        = Raise (ValueError "math domain error")
        /\ (a <? 0)%float = true).
Proof.
  intros a. unfold Calculator.orbital_period_kepler.
  destruct (float_pow a 3) as [cube|e] eqn:E; cbn [bind].
  - destruct (math_sqrt_outcome cube) as [(y & -> & Hy & _)|[-> Hneg]].
    + left. eauto.
    + right; right. split; [reflexivity|].
      destruct (a <? 0)%float eqn:Ha; [reflexivity|].
      rewrite (float_pow_not_negative a 3 cube Ha E) in Hneg.
      discriminate Hneg.
  - right; left. now destruct (float_pow_raises a 3 e E) as [-> _].
Qed.

(** ** Beyond the claims: the [SolarSystem] class *)

(** *** The loop of [get_planet_by_name] *)

Lemma get_planet_by_name_loop_first (ps : list SolarSystem.Planet)
      (n : string) :
  match SolarSystem.get_planet_by_name_loop ps n with
  | Ok (Some p) =>
      exists before after,
        ps = before ++ p :: after
        /\ lower (SolarSystem.name p) = lower n
        /\ forall q, In q before -> lower (SolarSystem.name q) <> lower n
  | Ok None =>
      forall q, In q ps -> lower (SolarSystem.name q) <> lower n
  | Raise _ => False
  end.
Proof.
  induction ps as [|q ps IH]; simpl.
  - intros q [].
  - destruct (String.eqb (lower (SolarSystem.name q)) (lower n)) eqn:E.
    + apply String.eqb_eq in E. exists [], ps.
      repeat split; auto; intros r [].
    + apply String.eqb_neq in E.
      destruct (SolarSystem.get_planet_by_name_loop ps n) as [[p|]|];
        [|intros r [<-|Hr]; auto|exact IH].
      destruct IH as (before & after & -> & Hm & Hb).
      exists (q :: before), after. repeat split; auto.
      intros r [<-|Hr]; auto.
Qed.

(** X6: [get_planet_by_name] never raises.  It returns the first planet
    of [self.planets] whose lower-cased name is the lower-cased argument,
    every planet before it having another name, and it returns [None] only
    when no planet of the list has that name. *)
Theorem get_planet_by_name_first_match :
  forall (self : SolarSystem.SolarSystem) (n : string),
    match SolarSystem.get_planet_by_name self n with
    | Ok (Some p) =>
        exists before after,
          SolarSystem.planets self = before ++ p :: after
          /\ lower (SolarSystem.name p) = lower n
          /\ forall q, In q before -> lower (SolarSystem.name q) <> lower n
    | Ok None =>
        forall q, In q (SolarSystem.planets self) ->
                  lower (SolarSystem.name q) <> lower n
    | Raise _ => False
    end.
Proof.
  intros self n. apply get_planet_by_name_loop_first.
Qed.

(** X7: in an instance whose planets have pairwise distinct lower-cased
    names, every planet is found under its own name, in any spelling of
    its case: the lookup returns that very planet. *)
Theorem get_planet_by_name_finds_member :
  forall (self : SolarSystem.SolarSystem) (p : SolarSystem.Planet)
         (n : string),
    NoDup (map (fun q => lower (SolarSystem.name q))
               (SolarSystem.planets self)) ->
    In p (SolarSystem.planets self) ->
    lower n = lower (SolarSystem.name p) ->
    SolarSystem.get_planet_by_name self n = Ok (Some p).
Proof.
  intros [ps] p n. unfold SolarSystem.get_planet_by_name. simpl.
  intros Hnd Hin Hn.
  rewrite (get_planet_by_name_loop_lower ps (SolarSystem.name p) n Hn).
  clear n Hn.
  induction ps as [|q ps IH]; simpl in *; [contradiction|].
  inversion Hnd as [|x l Hnotin Hnd']; subst.
  destruct Hin as [->|Hin].
  - now rewrite String.eqb_refl.
  - destruct (String.eqb (lower (SolarSystem.name q))
                (lower (SolarSystem.name p))) eqn:E.
    + apply String.eqb_eq in E. exfalso. apply Hnotin. rewrite E.
      apply (in_map (fun q => lower (SolarSystem.name q))). exact Hin.
    + now apply IH.
Qed.

Lemma init_names_distinct :
  NoDup (map (fun q => lower (SolarSystem.name q))
             (SolarSystem.planets SolarSystem.__init__)).
Proof.
  vm_compute.
  repeat (constructor;
          [simpl; intros H;
           repeat (destruct H as [H|H]; [discriminate H|]); exact H|]).
  constructor.
Qed.

Lemma get_planet_by_name_finds_member_witness :
  match SolarSystem.planets SolarSystem.__init__ with
  | _ :: _ :: _ :: mars :: _ =>
      SolarSystem.get_planet_by_name SolarSystem.__init__ "MARS"
      = Ok (Some mars)
  | _ => False
  end.
Proof.
  cbv beta iota delta [SolarSystem.planets SolarSystem.__init__
                       SolarSystem._create_planets].
  apply get_planet_by_name_finds_member.
  - exact init_names_distinct.
  - simpl. tauto.
  - reflexivity.
Defined.

(** *** Case folding *)

Lemma lower_char_idempotent (c : ascii) :
  lower_char (lower_char c) = lower_char c.
Proof.
  destruct c as [[] [] [] [] [] [] [] []]; vm_compute; reflexivity.
Qed.

Lemma lower_upper_char (c : ascii) :
  (N_of_ascii c <? 128)%N = true -> lower_char (upper_char c) = lower_char c.
Proof.
  destruct c as [[] [] [] [] [] [] [] []]; vm_compute;
    intros H; reflexivity || discriminate H.
Qed.

Lemma lower_idempotent (s : string) : lower (lower s) = lower s.
Proof.
  induction s as [|c s IH]; simpl; [reflexivity|].
  now rewrite lower_char_idempotent, IH.
Qed.

Lemma lower_upper (s : string) : isascii s = true -> lower (upper s) = lower s.
Proof.
  induction s as [|c s IH]; simpl; [reflexivity|].
  intros H. apply andb_prop in H. destruct H as [Hc Hs].
  now rewrite lower_upper_char, IH.
Qed.

(** X8: for every instance and every ASCII name, known or not, the lookup
    of the upper-cased name and the lookup of the lower-cased name return
    what the lookup of the name itself returns. *)
Theorem get_planet_by_name_folds_case :
  forall (self : SolarSystem.SolarSystem) (n : string),
    isascii n = true ->
    SolarSystem.get_planet_by_name self (upper n)
    = SolarSystem.get_planet_by_name self n
    /\ SolarSystem.get_planet_by_name self (lower n)
       = SolarSystem.get_planet_by_name self n.
Proof.
  intros self n Hn. unfold SolarSystem.get_planet_by_name. split.
  - apply get_planet_by_name_loop_lower. now apply lower_upper.
  - apply get_planet_by_name_loop_lower. apply lower_idempotent.
Qed.

Lemma get_planet_by_name_folds_case_witness :
  SolarSystem.get_planet_by_name SolarSystem.__init__ (upper "Jupiter")
  = SolarSystem.get_planet_by_name SolarSystem.__init__ "Jupiter"
  /\ SolarSystem.get_planet_by_name SolarSystem.__init__ (lower "Jupiter")
     = SolarSystem.get_planet_by_name SolarSystem.__init__ "Jupiter".
Proof.
  apply get_planet_by_name_folds_case. reflexivity.
Defined.

(** *** [classify_by_type] *)

Lemma planets_of_type_partition (ps : list SolarSystem.Planet) :
  Permutation
    (flat_map (SolarSystem.planets_of_type (SolarSystem.mk_SolarSystem ps))
              SolarSystem.members)
    (map SolarSystem.name ps).
Proof.
  unfold SolarSystem.planets_of_type, SolarSystem.members. simpl.
  rewrite app_nil_r.
  induction ps as [|p ps IH]; simpl; [constructor|].
  destruct (SolarSystem.planet_type p); simpl.
  - now constructor.
  - rewrite <- Permutation_middle. now constructor.
  - rewrite app_assoc, <- Permutation_middle, <- app_assoc. now constructor.
Qed.

(** X9: [classify_by_type] sorts every planet under exactly one type.  For
    every instance, the names it lists under the three types are, taken
    together, the names of [self.planets], each as often as it occurs
    there; what it prints is the six fixed lines and one line per
    planet. *)
Theorem classify_by_type_partition :
  forall self : SolarSystem.SolarSystem,
    Permutation
      (flat_map (SolarSystem.planets_of_type self) SolarSystem.members)
      (map SolarSystem.name (SolarSystem.planets self))
    /\ Permutation
         (SolarSystem.classify_by_type self)
         ([ [Str (newline ++ str_mul "=" 60)];
            [Str (center "PLANETS CLASSIFIED BY TYPE" 60)];
            [Str (str_mul "=" 60)];
            [Str (newline ++ "Terrestrial (Rocky):")];
            [Str (newline ++ "Gaseous (Gas Giant):")];
            [Str (newline ++ "Ice Giant:")] ]
          ++ map item_line (map SolarSystem.name (SolarSystem.planets self)))
    /\ List.length (SolarSystem.classify_by_type self)
       = (6 + List.length (SolarSystem.planets self))%nat.
Proof.
  intros [ps].
  pose proof (planets_of_type_partition ps) as Hp.
  assert (Hperm :
    Permutation
      (SolarSystem.classify_by_type (SolarSystem.mk_SolarSystem ps))
      ([ [Str (newline ++ str_mul "=" 60)];
         [Str (center "PLANETS CLASSIFIED BY TYPE" 60)];
         [Str (str_mul "=" 60)];
         [Str (newline ++ "Terrestrial (Rocky):")];
         [Str (newline ++ "Gaseous (Gas Giant):")];
         [Str (newline ++ "Ice Giant:")] ]
       ++ map item_line (map SolarSystem.name ps))).
  { unfold SolarSystem.classify_by_type, SolarSystem.members.
    cbn [flat_map app SolarSystem.value].
    do 4 apply perm_skip.
    rewrite <- Permutation_middle. apply perm_skip.
    rewrite app_assoc, <- Permutation_middle. apply perm_skip.
    rewrite app_nil_r, <- !map_app.
    change (fun planet : string => [Str ("  - " ++ planet)]) with item_line.
    apply Permutation_map.
    cbn [flat_map SolarSystem.members] in Hp.
    rewrite app_nil_r, app_assoc in Hp. exact Hp. }
  repeat split.
  - exact Hp.
  - exact Hperm.
  - rewrite (Permutation_length Hperm). simpl.
    now rewrite !length_map.
Qed.

(** *** [compare_planets] *)



(** X11: [compare_planets] reads its two arguments without regard to
    case: two calls whose arguments agree once lower-cased print the
    same. *)
Theorem compare_planets_case_insensitive :
  forall (self : SolarSystem.SolarSystem) (n1 n2 m1 m2 : string),
    lower m1 = lower n1 -> lower m2 = lower n2 ->
    SolarSystem.compare_planets self m1 m2
    = SolarSystem.compare_planets self n1 n2.
Proof.
  intros self n1 n2 m1 m2 H1 H2.
  unfold SolarSystem.compare_planets, SolarSystem.get_planet_by_name.
  now rewrite
    (get_planet_by_name_loop_lower (SolarSystem.planets self) n1 m1 H1),
    (get_planet_by_name_loop_lower (SolarSystem.planets self) n2 m2 H2).
Qed.

Lemma compare_planets_case_insensitive_witness :
  SolarSystem.compare_planets SolarSystem.__init__ "earth" "MARS"
  = SolarSystem.compare_planets SolarSystem.__init__ "Earth" "Mars".
Proof.
  apply compare_planets_case_insensitive; reflexivity.
Defined.

(** ** Beyond the claims: the two catalogs *)

(** X12: the invariants of [PLANETS].  No key occurs twice; every entry
    has a distance, a mass and a radius above zero and a count of moons
    that is not negative, so that none of the quotients of the module
    divides by zero; the entries stand in strictly increasing distance
    from the Sun. *)
Theorem PLANETS_invariants :
  NoDup Calculator.keys
  /\ (forall n p,
        Calculator.dict_get Calculator.PLANETS n = Some p ->
        (0 <? Calculator.distance_au p)%float = true
        /\ (0 <? Calculator.mass_earth p)%float = true
        /\ (0 < Calculator.radius_km p)%Z
        /\ (0 <= Calculator.moons p)%Z)
  /\ increasing (map (fun kv => Calculator.distance_au (snd kv))
                     Calculator.PLANETS) = true.
Proof.
  split; [|split].
  - vm_compute.
    repeat (constructor;
            [simpl; intros H;
             repeat (destruct H as [H|H]; [discriminate H|]); exact H|]).
    constructor.
  - intros n p Hp. each_planet Hp; repeat split; reflexivity || discriminate.
  - vm_compute. reflexivity.
Qed.

(** X13: the invariants of the planets that [__init__] creates.  They
    carry the keys of [PLANETS] as names, in the same order; no two names
    coincide once lower-cased, so that a lookup by name has one candidate
    at most; the list stands in strictly increasing distance from the Sun,
    as [display_all_planets] announces; every planet has a diameter and a
    mass above zero, a count of moons that is not negative, and five
    facts. *)
Theorem planets_invariants :
  map SolarSystem.name (SolarSystem.planets SolarSystem.__init__)
  = Calculator.keys
  /\ NoDup (map (fun q => lower (SolarSystem.name q))
                (SolarSystem.planets SolarSystem.__init__))
  /\ increasing (map SolarSystem.distance_from_sun_au
                     (SolarSystem.planets SolarSystem.__init__)) = true
  /\ (forall p,
        In p (SolarSystem.planets SolarSystem.__init__) ->
        (0 < SolarSystem.diameter_km p)%Z
        /\ (0 <? SolarSystem.mass_relative_to_earth p)%float = true
        /\ (0 <= SolarSystem.moons p)%Z
        /\ List.length (SolarSystem.interesting_facts p) = 5%nat).
Proof.
  split; [reflexivity|]. split; [exact init_names_distinct|].
  split; [vm_compute; reflexivity|].
  intros p Hin. simpl in Hin.
  repeat (destruct Hin as [<-|Hin];
          [repeat split; reflexivity || discriminate|]).
  contradiction.
Qed.

(** *** Blanks around a name *)

Lemma lower_append (s t : string) :
  lower (s ++ t) = (lower s ++ lower t)%string.
Proof.
  induction s as [|c s IH]; simpl; [reflexivity|]. now rewrite IH.
Qed.

Lemma last_char_append_space (s : string) :
  last_char (s ++ " ") = Some " "%char.
Proof.
  induction s as [|c s IH]; [reflexivity|].
  simpl. rewrite IH.
  destruct (s ++ " ")%string eqn:E; [|reflexivity].
  destruct s; discriminate E.
Qed.

Lemma padded_unknown (s : string) :
  unknown (" " ++ s) /\ unknown (s ++ " ").
Proof.
  split; intros entry Hin Hm; unfold matches in Hm.
  - simpl in Hin, Hm.
    repeat (destruct Hin as [<-|Hin]; [discriminate Hm|]). contradiction.
  - rewrite lower_append in Hm.
    apply (f_equal last_char) in Hm.
    rewrite last_char_append_space in Hm.
    simpl in Hin.
    repeat (destruct Hin as [<-|Hin]; [discriminate Hm|]). contradiction.
Qed.

Lemma unknown_not_key (n : string) : unknown n -> ~ In n Calculator.keys.
Proof. intros Hu Hin. exact (Hu n Hin eq_refl). Qed.

(** X14: neither module trims its argument.  A name with a blank in front
    of it or a blank behind it is no planet: [get_planet_by_name] returns
    [None] for it and the functions of the calculator raise their
    [ValueError]. *)
Theorem blanks_are_not_trimmed :
  forall s padded,
    padded = (" " ++ s)%string \/ padded = (s ++ " ")%string ->
    SolarSystem.get_planet_by_name SolarSystem.__init__ padded = Ok None
    /\ Calculator.escape_velocity padded
       = Raise (Calculator.not_found padded)
    /\ Calculator.surface_gravity padded
       = Raise (Calculator.not_found padded)
    /\ Calculator.planetary_info padded
       = Raise (Calculator.not_found padded)
    /\ Calculator.habitability_check padded
       = Raise (Calculator.not_found padded).
Proof.
  intros s padded Hp.
  assert (Hu : unknown padded)
    by (destruct (padded_unknown s); destruct Hp; subst; assumption).
  split.
  - now apply get_planet_by_name_None_iff.
  - apply calculator_not_found, unknown_not_key, Hu.
Qed.

Lemma blanks_are_not_trimmed_witness :
  SolarSystem.get_planet_by_name SolarSystem.__init__ "Earth " = Ok None
  /\ Calculator.escape_velocity "Earth "
     = Raise (ValueError "Planet Earth  not found").
Proof.
  destruct (blanks_are_not_trimmed "Earth" "Earth " (or_intror eq_refl))
    as (H1 & H2 & _).
  split; [exact H1|exact H2].
Defined.

(** *** The stored year and the year of Kepler's law *)

(** X16: for every entry of [PLANETS], the period that
    [orbital_period_kepler] derives from the distance, taken in days of a
    year of 365.25, is within one per cent of the [year_days] that the
    entry stores. *)
Theorem kepler_period_matches_year_days :
  forall n p,
    Calculator.dict_get Calculator.PLANETS n = Some p ->
    exists years,
      Calculator.orbital_period_kepler (Calculator.distance_au p) = Ok years
      /\ let days := number_float (Calculator.year_days p) in
         (abs (years * 365.25 - days) <=? 0.01 * days)%float = true.
Proof.
  intros n p Hp.
  each_planet Hp; eexists; (split; [vm_compute; reflexivity|]);
    vm_compute; reflexivity.
Qed.

Lemma kepler_period_matches_year_days_witness :
  exists years,
    Calculator.orbital_period_kepler 30.069 = Ok years
    /\ (abs (years * 365.25 - 59800) <=? 0.01 * 59800)%float = true.
Proof.
  exact (kepler_period_matches_year_days "Neptune"
           (Calculator.mk_planet_data 30.069 17.1 24622 (Float 16.1)
              (Int 59800) 14)
           eq_refl).
Defined.

(** ** Beyond the claims: the formulas over the reals *)


